(** * Verification of [balanced_split] (src/utils.py)

    The routine walks once over the target labels [y] and decides, for
    every sample, whether it goes to the training set (marker [-1]) or to
    the validation set (marker [1]).  Four integer counters are the only
    state besides the list that is being built.

    The labels are integers (0 for a normal sample, 1 for an outlier) and
    Python integers are unbounded, so labels and counters are [Z].  The list
    [selected_indices] grows by [append], which is [++ [_]] here.  The calls
    to [print] are modelled by threading the standard output, a list of
    printed lines, through the function. *)

From Stdlib Require Import String.
From Stdlib Require Import ZArith List Bool Lia.
Import ListNotations.
Open Scope Z_scope.

Module Utils.

(** ** Data *)

(** The two values appended to [selected_indices]: [-1] for the training
    set (lines 107 and 114; the docstring says 0, the code appends -1) and
    [1] for the validation set (lines 104 and 111). *)
Definition TRAIN : Z := -1.
Definition VALIDATION : Z := 1.

(** The local variables of [balanced_split] that the loop updates. *)
Record locals : Type := mkLocals {
  selected_indices : list Z;
  norm_train : Z;
  norm_test : Z;
  out_train : Z;
  out_test : Z
}.

(** Lines 96-100: the initialisation. *)
Definition initial : locals :=
  {| selected_indices := [];
     norm_train := 0;
     norm_test := 0;
     out_train := 0;
     out_test := 0 |}.

(** Lines 102-115: one iteration of [for v in y]. *)
Definition loop_body (st : locals) (v : Z) : locals :=
  if v =? 1 then
    if out_train st >? 0 then
      {| selected_indices := selected_indices st ++ [1];
         norm_train := norm_train st;
         norm_test := norm_test st;
         out_train := out_train st;
         out_test := out_test st + 1 |}
    else
      {| selected_indices := selected_indices st ++ [-1];
         norm_train := norm_train st;
         norm_test := norm_test st;
         out_train := out_train st + 1;
         out_test := out_test st |}
  else
    if out_test st >? norm_test st then
      {| selected_indices := selected_indices st ++ [1];
         norm_train := norm_train st;
         norm_test := norm_test st + 1;
         out_train := out_train st;
         out_test := out_test st |}
    else
      {| selected_indices := selected_indices st ++ [-1];
         norm_train := norm_train st + 1;
         norm_test := norm_test st;
         out_train := out_train st;
         out_test := out_test st |}.

(** Line 101: the whole loop, started from any values of the locals. *)
Definition loop_from (st : locals) (y : list Z) : locals :=
  fold_left loop_body y st.

Definition loop (y : list Z) : locals := loop_from initial y.

(** The locals before the first iteration and after each one, in order:
    entry [k] is what the locals hold once [k] samples are processed. *)
Fixpoint loop_trace (y : list Z) (st : locals) {struct y} : list locals :=
  st :: match y with
        | [] => []
        | v :: y' => loop_trace y' (loop_body st v)
        end.

(** One call of [print(text, number)]. *)
Definition line : Type := (string * Z)%type.
Definition stdout : Type := list line.

(** Lines 117-122: the five summary lines. *)
Definition report (y : list Z) (st : locals) : list line :=
  [ ("Number of total samples to split:"%string, Z.of_nat (length y));
    ("Number of outliers in training:"%string, out_train st);
    ("Number of outliers in test:"%string, out_test st);
    ("Number of normal points in training:"%string, norm_train st);
    ("Number of normal points in test:"%string, norm_test st) ].

(** [balanced_split(y, print_flag)]: the returned list together with the
    standard output after the call. *)
Definition balanced_split (y : list Z) (print_flag : bool) (out : stdout)
  : list Z * stdout :=
  let st := loop y in
  (selected_indices st,
   if print_flag then out ++ report y st else out).

(** The value the call returns. *)
Definition split_of (y : list Z) (print_flag : bool) (out : stdout) : list Z :=
  fst (balanced_split y print_flag out).

(** ** Vocabulary of the specification *)

(** A label sequence is binary when it holds only 0 and 1. *)
Definition binary (y : list Z) : Prop :=
  Forall (fun v => v = 0 \/ v = 1) y.

(** The test of line 102. *)
Definition is_outlier (v : Z) : bool := v =? 1.

(** Number of positions whose label satisfies [p] and that received the
    marker [m]. *)
Definition count_assigned (p : Z -> bool) (m : Z) (y sel : list Z) : nat :=
  length (filter (fun va => p (fst va) && (snd va =? m)) (combine y sel)).

Definition count_marker (m : Z) (sel : list Z) : nat :=
  length (filter (fun a => a =? m) sel).

Definition counter_sum (st : locals) : Z :=
  out_train st + out_test st + norm_train st + norm_test st.

(** What a call can do: hand back a value, or raise. *)
Inductive error : Type := InvalidInput.

Inductive outcome : Type :=
| Returns (sel : list Z)
| Raises (e : error).

(** The body of [balanced_split] holds no [raise], and comparing and adding
    integers cannot fail, so every call on a list of integers returns. *)
Definition call_balanced_split (y : list Z) (print_flag : bool) (out : stdout)
  : outcome :=
  Returns (split_of y print_flag out).

(** The marker that one iteration appends: the four [append] calls of
    [loop_body], read off its two tests. *)
Definition marker_of (st : locals) (v : Z) : Z :=
  if v =? 1 then (if out_train st >? 0 then VALIDATION else TRAIN)
  else (if out_test st >? norm_test st then VALIDATION else TRAIN).

(** The four counters in the order the specification traces them. *)
Definition counters (st : locals) : Z * Z * Z * Z :=
  (out_train st, out_test st, norm_train st, norm_test st).

Definition is_normal (v : Z) : bool := negb (is_outlier v).

(** Reading every label that is not 1 as the normal label 0, which is what
    the [else] of line 109 does. *)
Definition as_binary (v : Z) : Z := if v =? 1 then 1 else 0.

(** What the locals mean once the labels [y] have been processed. *)
Record consistent (y : list Z) (st : locals) : Prop := {
  c_length : length (selected_indices st) = length y;
  c_out_train :
    out_train st
    = Z.of_nat (count_assigned is_outlier TRAIN y (selected_indices st));
  c_out_test :
    out_test st
    = Z.of_nat (count_assigned is_outlier VALIDATION y (selected_indices st));
  c_norm_train :
    norm_train st
    = Z.of_nat (count_assigned is_normal TRAIN y (selected_indices st));
  c_norm_test :
    norm_test st
    = Z.of_nat (count_assigned is_normal VALIDATION y (selected_indices st));
  c_seen : out_train st = if existsb is_outlier y then 1 else 0;
  c_sum : counter_sum st = Z.of_nat (length y);
  c_balance : norm_test st <= out_test st
}.

End Utils.

Import Utils.

(** ** Further vocabulary for [balanced_split] *)

Module SplitCounts.

(** How many labels take the branch of line 102, and how many the [else]
    of line 109. *)
Definition outliers (y : list Z) : nat := length (filter is_outlier y).
Definition normals (y : list Z) : nat := length (filter is_normal y).

(** The numbers that the five printed lines carry, in order. *)
Definition printed_numbers (ls : list line) : list Z := map snd ls.

End SplitCounts.

Import SplitCounts.

(** ** [get_metric_result] (src/utils.py, lines 142-150): the columns

    Only the list [cols] is modelled.  Building the frame (line 141) and
    selecting and sorting it (line 151) are the work of pandas. *)

Module Metrics.

(** Lines 142-148: the columns that are always requested. *)
Definition fixed_cols : list string :=
  [ "rank_test_scores"; "status"; "param_classifier:__choice__";
    "mean_test_score"; "mean_fit_time" ]%string.

(** [key.startswith(p)]. *)
Definition startswith (key p : string) : bool := String.prefix p key.

(** Lines 149-150: [cols.extend([key for key in cv_results.keys()
    if key.startswith('metric_')])].  A dict hands out its keys in insertion
    order, so [cv_results] is a list of pairs and the keys are their first
    components. *)
Definition metric_keys (V : Type) (cv_results : list (string * V)) : list string :=
  filter (fun key => startswith key "metric_") (map fst cv_results).

Definition cols (V : Type) (cv_results : list (string * V)) : list string :=
  fixed_cols ++ metric_keys V cv_results.

Arguments metric_keys {V} cv_results.
Arguments cols {V} cv_results.

(** An entry of a [cv_results] array. *)
Inductive cell : Type :=
| Num (z : Z)
| Str (s : string).

(** A [cv_results] of two evaluated models: every key maps to an array with
    one entry per model, the five fixed keys are present, and two metrics
    were recorded. *)
Definition two_models : list (string * list cell) :=
  [ ("mean_test_score"%string, [Num 1; Num 0]);
    ("metric_roc_auc"%string, [Num 1; Num 0]);
    ("mean_fit_time"%string, [Num 3; Num 2]);
    ("params"%string, [Str "first"; Str "second"]);
    ("rank_test_scores"%string, [Num 1; Num 2]);
    ("status"%string, [Str "Success"; Str "Success"]);
    ("metric_f1"%string, [Num 1; Num 0]);
    ("param_classifier:__choice__"%string,
     [Str "ECODClassifier"; Str "KNNClassifier"]) ].

End Metrics.

(** ** [ECODClassifier] (pyod_models/ecod.py) *)

Module Ecod.

(** The estimator of the pyod library that the adapter wraps is not part of
    this repository.  It is taken as an interface: the estimator object
    [ECOD()] as constructed, what [fit] leaves of the object and whether it
    raised, and what [predict] and [predict_proba] hand back for an object
    (both read the object without changing it). *)
Class Pyod : Type := {
  samples : Type;
  targets : Type;
  predictions : Type;
  probabilities : Type;
  estimator_object : Type;
  library_error : Type;
  ECOD : estimator_object;
  ecod_fit : estimator_object -> samples -> targets
             -> estimator_object * option library_error;
  ecod_predict : estimator_object -> samples -> library_error + predictions;
  ecod_predict_proba :
    estimator_object -> samples -> library_error + probabilities
}.

Section Adapter.

Context {L : Pyod}.

(** What a method can raise: the adapter's own [NotImplementedError]
    (lines 22 and 27) or whatever the library raised. *)
Inductive exn : Type :=
| NotImplementedError
| LibraryError (e : library_error).

Inductive result (A : Type) : Type :=
| Return (a : A)
| Raise (e : exn).

(** The two attributes of the object. *)
Record ECODClassifier : Type := mkECOD {
  random_state : option Z;
  estimator : option estimator_object
}.

(** Lines 10-12. *)
Definition init (rs : option Z) : ECODClassifier :=
  {| random_state := rs; estimator := None |}.

(** Lines 14-19: a new [ECOD()] is bound to [self.estimator] and fitted; the
    object stays bound when the library raises. *)
Definition fit (self : ECODClassifier) (x : samples) (y : targets)
  : ECODClassifier * result unit :=
  let fitted := ecod_fit ECOD x y in
  ({| random_state := random_state self; estimator := Some (fst fitted) |},
   match snd fitted with
   | None => Return unit tt
   | Some e => Raise unit (LibraryError e)
   end).

Definition lift (A : Type) (r : library_error + A) : result A :=
  match r with
  | inl e => Raise A (LibraryError e)
  | inr a => Return A a
  end.

(** Lines 21-24. *)
Definition predict (self : ECODClassifier) (x : samples) : result predictions :=
  match estimator self with
  | None => Raise predictions NotImplementedError
  | Some e => lift predictions (ecod_predict e x)
  end.

(** Lines 26-29. *)
Definition predict_proba (self : ECODClassifier) (x : samples)
  : result probabilities :=
  match estimator self with
  | None => Raise probabilities NotImplementedError
  | Some e => lift probabilities (ecod_predict_proba e x)
  end.

(** A method call on the object, and the object after a series of calls. *)
Inductive call : Type :=
| Fit (x : samples) (y : targets)
| Predict (x : samples)
| PredictProba (x : samples).

Definition after_call (self : ECODClassifier) (c : call) : ECODClassifier :=
  match c with
  | Fit x y => fst (fit self x y)
  | Predict _ => self
  | PredictProba _ => self
  end.

Definition after_calls (self : ECODClassifier) (cs : list call) : ECODClassifier :=
  fold_left after_call cs self.

(** The arguments of the latest [fit] among the calls, if there is one. *)
Fixpoint last_fit (cs : list call) (seen : option (samples * targets))
  : option (samples * targets) :=
  match cs with
  | [] => seen
  | Fit x y :: cs' => last_fit cs' (Some (x, y))
  | _ :: cs' => last_fit cs' seen
  end.

(** The estimator that [fit] binds, given the arguments of the latest
    [fit]. *)
Definition bound_estimator (seen : option (samples * targets))
  : option estimator_object :=
  match seen with
  | None => None
  | Some (x, y) => Some (fst (ecod_fit ECOD x y))
  end.

End Adapter.

End Ecod.

(** Case analysis on the two tests that an iteration performs. *)
Ltac split_tests st v :=
  destruct (Z.eqb_spec v 1);
  [ destruct (Z.gtb_spec (out_train st) 0)
  | destruct (Z.gtb_spec (out_test st) (norm_test st)) ].

(** * Properties of the loop *)

Section Loop.

Lemma loop_from_app (st : locals) (l l' : list Z) :
  loop_from st (l ++ l') = loop_from (loop_from st l) l'.
Proof. unfold loop_from. apply fold_left_app. Qed.

Lemma loop_snoc (l : list Z) (v : Z) :
  loop (l ++ [v]) = loop_body (loop l) v.
Proof. unfold loop. rewrite loop_from_app. reflexivity. Qed.

Lemma loop_body_appends (st : locals) (v : Z) :
  selected_indices (loop_body st v) = selected_indices st ++ [marker_of st v].
Proof.
  unfold loop_body, marker_of.
  destruct (v =? 1); [destruct (out_train st >? 0) | destruct (out_test st >? norm_test st)];
    reflexivity.
Qed.

Lemma marker_of_cases (st : locals) (v : Z) :
  marker_of st v = TRAIN \/ marker_of st v = VALIDATION.
Proof.
  unfold marker_of.
  destruct (v =? 1); [destruct (out_train st >? 0) | destruct (out_test st >? norm_test st)];
    auto.
Qed.

(** The loop only ever extends the list it was started with. *)
Lemma loop_from_extends (l : list Z) :
  forall st, exists t,
    selected_indices (loop_from st l) = selected_indices st ++ t /\
    length t = length l.
Proof.
  induction l as [|v l IH]; intros st.
  - exists []. split; [symmetry; apply app_nil_r | reflexivity].
  - destruct (IH (loop_body st v)) as [t [Ht Hl]].
    exists (marker_of st v :: t). split.
    + change (loop_from st (v :: l)) with (loop_from (loop_body st v) l).
      rewrite Ht, loop_body_appends, <- app_assoc. reflexivity.
    + simpl. now rewrite Hl.
Qed.

Lemma loop_length (y : list Z) :
  length (selected_indices (loop y)) = length y.
Proof.
  destruct (loop_from_extends y initial) as [t [Ht Hl]].
  unfold loop. rewrite Ht. simpl. exact Hl.
Qed.

(** The marker at position [i] is decided by the locals as they are after
    the first [i] samples: later samples do not change it. *)
Lemma split_nth (y : list Z) (i : nat) (v : Z) :
  nth_error y i = Some v ->
  nth_error (selected_indices (loop y)) i
  = Some (marker_of (loop (firstn i y)) v).
Proof.
  intros Hv.
  destruct (nth_error_split y i Hv) as [pre [post [Hy Hlen]]].
  subst y.
  assert (Hpre : firstn i (pre ++ v :: post) = pre).
  { rewrite <- Hlen. rewrite firstn_app, firstn_all, Nat.sub_diag. simpl.
    apply app_nil_r. }
  rewrite Hpre.
  unfold loop at 1. rewrite loop_from_app.
  change (loop_from (loop_from initial pre) (v :: post))
    with (loop_from (loop_body (loop pre) v) post).
  destruct (loop_from_extends post (loop_body (loop pre) v)) as [t [Ht _]].
  rewrite Ht, loop_body_appends, <- app_assoc.
  rewrite nth_error_app2; rewrite loop_length, Hlen; [|lia].
  rewrite Nat.sub_diag. reflexivity.
Qed.

Lemma split_firstn (y : list Z) (k : nat) :
  firstn k (selected_indices (loop y)) = selected_indices (loop (firstn k y)).
Proof.
  rewrite <- (firstn_skipn k y) at 1.
  unfold loop at 1. rewrite loop_from_app.
  destruct (loop_from_extends (skipn k y) (loop (firstn k y))) as [t [Ht Hl]].
  fold (loop (firstn k y)). rewrite Ht.
  destruct (Nat.le_gt_cases k (length y)) as [Hk|Hk].
  - rewrite firstn_app, loop_length, length_firstn, Nat.min_l by exact Hk.
    rewrite Nat.sub_diag. simpl. rewrite app_nil_r.
    apply firstn_all2. rewrite loop_length, length_firstn. lia.
  - rewrite length_skipn in Hl.
    assert (t = []) by (destruct t; [reflexivity | simpl in Hl; lia]).
    subst t. rewrite app_nil_r.
    apply firstn_all2. rewrite loop_length, length_firstn. lia.
Qed.

Lemma loop_trace_length (y : list Z) :
  forall st, length (loop_trace y st) = S (length y).
Proof.
  induction y as [|v y IH]; intros st; simpl; [reflexivity|].
  now rewrite IH.
Qed.

(** Entry [k] of the trace is the loop run on the first [k] samples. *)
Lemma loop_trace_nth (y : list Z) :
  forall st k, (k <= length y)%nat ->
    nth_error (loop_trace y st) k = Some (loop_from st (firstn k y)).
Proof.
  induction y as [|v y IH]; intros st k Hk.
  - simpl in Hk. assert (k = 0%nat) by lia. subst k. reflexivity.
  - destruct k as [|k]; [reflexivity|].
    simpl in Hk. simpl. apply IH. lia.
Qed.

End Loop.

(** * Counters and counts *)

Section Counting.

Lemma combine_snoc (A B : Type) (l : list A) (x : A) :
  forall (l' : list B) (x' : B),
    length l = length l' ->
    combine (l ++ [x]) (l' ++ [x']) = combine l l' ++ [(x, x')].
Proof.
  induction l as [|a l IH]; intros [|b l'] x' Hlen; simpl in *; try discriminate.
  - reflexivity.
  - f_equal. apply IH. now injection Hlen.
Qed.

Lemma count_assigned_snoc (p : Z -> bool) (m : Z) (y sel : list Z) (v a : Z) :
  length y = length sel ->
  count_assigned p m (y ++ [v]) (sel ++ [a])
  = (count_assigned p m y sel + (if p v && (a =? m)%Z then 1 else 0))%nat.
Proof.
  intros Hlen. unfold count_assigned.
  rewrite combine_snoc by exact Hlen.
  rewrite filter_app, length_app. simpl.
  destruct (p v && (a =? m)); reflexivity.
Qed.

Lemma existsb_snoc (p : Z -> bool) (l : list Z) (v : Z) :
  existsb p (l ++ [v]) = existsb p l || p v.
Proof. rewrite existsb_app. simpl. now rewrite orb_false_r. Qed.

Lemma initial_consistent : consistent [] initial.
Proof. split; simpl; (reflexivity || lia). Qed.

Lemma loop_body_consistent (y : list Z) (st : locals) (v : Z) :
  consistent y st -> consistent (y ++ [v]) (loop_body st v).
Proof.
  intros [Hlen Hot Hov Hnt Hnv Hseen Hsum Hbal].
  assert (Hy : length y = length (selected_indices st)) by now symmetry.
  unfold counter_sum in Hsum.
  split; rewrite ?loop_body_appends, ?count_assigned_snoc by exact Hy;
    rewrite ?existsb_snoc, ?length_app; unfold counter_sum;
    unfold loop_body, marker_of, is_normal, is_outlier, TRAIN, VALIDATION in *;
    split_tests st v; simpl;
    destruct (existsb (fun v0 => v0 =? 1) y); simpl; lia.
Qed.

Lemma loop_consistent (y : list Z) : consistent y (loop y).
Proof.
  induction y as [|v y IH] using rev_ind.
  - exact initial_consistent.
  - rewrite loop_snoc. now apply loop_body_consistent.
Qed.

End Counting.

(** * The returned assignment sequence *)

Section Assignments.

Lemma split_of_loop (y : list Z) (flag : bool) (out : stdout) :
  split_of y flag out = selected_indices (loop y).
Proof. reflexivity. Qed.

Lemma loop_markers (y : list Z) :
  Forall (fun a => a = TRAIN \/ a = VALIDATION) (selected_indices (loop y)).
Proof.
  induction y as [|v y IH] using rev_ind.
  - constructor.
  - rewrite loop_snoc, loop_body_appends.
    apply Forall_app. split; [exact IH|].
    constructor; [apply marker_of_cases | constructor].
Qed.

Lemma count_marker_total (sel : list Z) :
  Forall (fun a => a = TRAIN \/ a = VALIDATION) sel ->
  (count_marker TRAIN sel + count_marker VALIDATION sel)%nat = length sel.
Proof.
  unfold count_marker.
  induction 1 as [|a sel [Ha|Ha] _ IH]; [reflexivity | |];
    subst a; simpl; lia.
Qed.

(** Whether an outlier was met so far is exactly what [out_train] records. *)
Lemma out_train_no_outlier (y : list Z) :
  (forall v, In v y -> v <> 1) -> out_train (loop y) = 0.
Proof.
  intros Hno. rewrite (c_seen _ _ (loop_consistent y)).
  destruct (existsb is_outlier y) eqn:E; [|reflexivity].
  apply existsb_exists in E. destruct E as [v [Hin Hv]].
  unfold is_outlier in Hv. apply Z.eqb_eq in Hv.
  now elim (Hno v Hin).
Qed.

Lemma out_train_outlier (y : list Z) :
  In 1 y -> out_train (loop y) = 1.
Proof.
  intros Hin. rewrite (c_seen _ _ (loop_consistent y)).
  replace (existsb is_outlier y) with true; [reflexivity|].
  symmetry. apply existsb_exists. exists 1. split; [exact Hin | reflexivity].
Qed.

Lemma In_firstn_of_nth (y : list Z) (i j : nat) (v : Z) :
  (i < j)%nat -> nth_error y i = Some v -> In v (firstn j y).
Proof.
  intros Hij Hv. apply (nth_error_In _ i).
  rewrite nth_error_firstn.
  destruct (Nat.ltb_spec i j); [exact Hv | lia].
Qed.

End Assignments.

(** * The claims *)

(** C1. For every label sequence [y] of length N (binary or not, empty or
    not) the call returns exactly N markers, each of them TRAIN ([-1]) or
    VALIDATION ([1]), so the number of TRAIN plus the number of VALIDATION
    is N; on the empty sequence the result is the empty sequence. *)
Theorem balanced_split_length (y : list Z) (flag : bool) (out : stdout) :
  length (split_of y flag out) = length y /\
  Forall (fun a => a = TRAIN \/ a = VALIDATION) (split_of y flag out) /\
  (count_marker TRAIN (split_of y flag out)
   + count_marker VALIDATION (split_of y flag out))%nat = length y /\
  split_of [] flag out = [].
Proof.
  rewrite split_of_loop.
  repeat split.
  - apply loop_length.
  - apply loop_markers.
  - rewrite count_marker_total by apply loop_markers. apply loop_length.
Qed.

(** C2. At most one position labelled outlier (1) is assigned TRAIN: the
    number of such positions is at most one, and every outlier that comes
    after another outlier is assigned VALIDATION. *)
Theorem at_most_one_outlier_in_train (y : list Z) (flag : bool) (out : stdout) :
  (count_assigned is_outlier TRAIN y (split_of y flag out) <= 1)%nat /\
  forall i j : nat,
    (i < j)%nat ->
    nth_error y i = Some 1 ->
    nth_error y j = Some 1 ->
    nth_error (split_of y flag out) j = Some VALIDATION.
Proof.
  rewrite split_of_loop. split.
  - pose proof (c_out_train _ _ (loop_consistent y)) as Hc.
    pose proof (c_seen _ _ (loop_consistent y)) as Hs.
    destruct (existsb is_outlier y); lia.
  - intros i j Hij Hi Hj.
    rewrite (split_nth y j 1 Hj).
    unfold marker_of. simpl.
    rewrite (out_train_outlier (firstn j y)); [reflexivity|].
    exact (In_firstn_of_nth y i j 1 Hij Hi).
Qed.

Lemma at_most_one_outlier_in_train_witness :
  nth_error (split_of [1;0;1;1] true []) 3 = Some VALIDATION.
Proof.
  apply (proj2 (at_most_one_outlier_in_train [1;0;1;1] true []) 2%nat 3%nat).
  - lia.
  - reflexivity.
  - reflexivity.
Defined.

(** C3. When the sequence holds an outlier, the first one (the position
    [i] labelled 1 with no 1 before it) is assigned TRAIN. *)
Theorem first_outlier_in_train (y : list Z) (flag : bool) (out : stdout) (i : nat) :
  nth_error y i = Some 1 ->
  (forall k : nat, (k < i)%nat -> nth_error y k <> Some 1) ->
  nth_error (split_of y flag out) i = Some TRAIN.
Proof.
  intros Hi Hfirst. rewrite split_of_loop.
  rewrite (split_nth y i 1 Hi).
  unfold marker_of. simpl.
  rewrite out_train_no_outlier; [reflexivity|].
  intros v Hin Hv. subst v.
  apply In_nth_error in Hin. destruct Hin as [k Hk].
  assert (Hlt : (k < i)%nat).
  { assert (Hsome : nth_error (firstn i y) k <> None) by congruence.
    apply nth_error_Some in Hsome. rewrite length_firstn in Hsome. lia. }
  rewrite nth_error_firstn in Hk.
  destruct (Nat.ltb_spec k i); [|lia].
  exact (Hfirst k Hlt Hk).
Qed.

Lemma first_outlier_in_train_witness :
  nth_error (split_of [0;0;1;0;1] true []) 2 = Some TRAIN.
Proof.
  apply (first_outlier_in_train [0;0;1;0;1] true [] 2).
  - reflexivity.
  - intros k Hk.
    destruct k as [|[|k]]; simpl; [discriminate | discriminate | lia].
Defined.

Section OtherLabels.

Lemma loop_body_as_binary (st : locals) (v : Z) :
  loop_body st (as_binary v) = loop_body st v.
Proof.
  unfold loop_body, as_binary. destruct (v =? 1); reflexivity.
Qed.

Lemma loop_from_as_binary (y : list Z) :
  forall st, loop_from st (map as_binary y) = loop_from st y.
Proof.
  induction y as [|v y IH]; intros st; [reflexivity|].
  simpl map.
  change (loop_from (loop_body st (as_binary v)) (map as_binary y)
          = loop_from (loop_body st v) y).
  rewrite loop_body_as_binary. apply IH.
Qed.

(** With no outlier waiting for a partner in the validation set, a run of
    samples that are all 0 is sent to the training set. *)
Lemma loop_from_zeros (y : list Z) :
  forall st,
    Forall (fun v => v = 0) y ->
    out_test st <= norm_test st ->
    selected_indices (loop_from st y)
    = selected_indices st ++ repeat TRAIN (length y).
Proof.
  induction y as [|v y IH]; intros st Hy Hst.
  - simpl. now rewrite app_nil_r.
  - inversion Hy as [|v' y' Hv Hy']; subst.
    change (loop_from st (0 :: y)) with (loop_from (loop_body st 0) y).
    assert (Hb : loop_body st 0
                 = {| selected_indices := selected_indices st ++ [-1];
                      norm_train := norm_train st + 1;
                      norm_test := norm_test st;
                      out_train := out_train st;
                      out_test := out_test st |}).
    { unfold loop_body. simpl.
      destruct (Z.gtb_spec (out_test st) (norm_test st)); [lia | reflexivity]. }
    rewrite Hb. rewrite IH; [| exact Hy' | exact Hst].
    simpl. rewrite <- app_assoc. reflexivity.
Qed.

End OtherLabels.

(** C4, as the code has it.  The claim asks for an [InvalidInput] failure
    when a label is neither 0 nor 1.  The loop never inspects a label beyond
    [v == 1]: the input [[2]] is processed like [[0]] and a list comes back. *)
Lemma invalid_label_not_rejected :
  Exists (fun v => v <> 0 /\ v <> 1) [2] /\
  call_balanced_split [2] true [] = Returns [TRAIN] /\
  ~ (forall (y : list Z) (flag : bool) (out : stdout),
        Exists (fun v => v <> 0 /\ v <> 1) y ->
        call_balanced_split y flag out = Raises InvalidInput).
Proof.
  assert (Hex : Exists (fun v => v <> 0 /\ v <> 1) [2]).
  { constructor. split; discriminate. }
  split; [exact Hex|]. split; [reflexivity|].
  intros H. specialize (H [2] true [] Hex). discriminate H.
Qed.

(** C4, amended.  For every input sequence with an element outside
    {0, 1} the call raises nothing: it returns an assignment sequence of
    the same length, the one it returns when every label other than 1 is
    replaced by the normal label 0. *)
Theorem invalid_label_treated_as_normal (y : list Z) (flag : bool) (out : stdout) :
  Exists (fun v => v <> 0 /\ v <> 1) y ->
  call_balanced_split y flag out = Returns (split_of y flag out) /\
  split_of y flag out = split_of (map as_binary y) flag out /\
  binary (map as_binary y) /\
  length (split_of y flag out) = length y.
Proof.
  intros _. repeat split.
  - rewrite !split_of_loop. unfold loop. now rewrite loop_from_as_binary.
  - unfold binary. apply Forall_map, Forall_forall. intros v _.
    unfold as_binary. destruct (v =? 1); auto.
  - rewrite split_of_loop. apply loop_length.
Qed.

Lemma invalid_label_treated_as_normal_witness :
  call_balanced_split [1;2;1;2] true [] = Returns (split_of [1;2;1;2] true []) /\
  split_of [1;2;1;2] true [] = split_of (map as_binary [1;2;1;2]) true [] /\
  binary (map as_binary [1;2;1;2]) /\
  length (split_of [1;2;1;2] true []) = length [1;2;1;2].
Proof.
  apply (invalid_label_treated_as_normal [1;2;1;2] true []).
  apply Exists_cons_tl, Exists_cons_hd. split; discriminate.
Defined.

(** C5. An all-zeros sequence of length N > 0 is assigned to TRAIN at every
    position; in particular [[0,0,0,0]] gives [[-1,-1,-1,-1]]. *)
Theorem all_zeros_all_train (y : list Z) (flag : bool) (out : stdout) :
  (0 < length y)%nat ->
  Forall (fun v => v = 0) y ->
  split_of y flag out = repeat TRAIN (length y) /\
  split_of [0;0;0;0] flag out = [-1;-1;-1;-1].
Proof.
  intros _ Hy. split; [|reflexivity].
  rewrite split_of_loop. unfold loop.
  rewrite loop_from_zeros; [reflexivity | exact Hy | simpl; lia].
Qed.

Lemma all_zeros_all_train_witness :
  split_of [0;0;0] true [] = repeat TRAIN (length [0;0;0]) /\
  split_of [0;0;0;0] true [] = [-1;-1;-1;-1].
Proof.
  apply (all_zeros_all_train [0;0;0] true []).
  - simpl. lia.
  - repeat constructor.
Defined.

(** C6. On [[1,0,1,0,0]] the result is
    [[TRAIN,TRAIN,VALIDATION,VALIDATION,TRAIN]], and the counters
    (out_train, out_test, norm_train, norm_test) evolve as the
    specification traces them. *)
Theorem scenario_10100 (flag : bool) (out : stdout) :
  split_of [1;0;1;0;0] flag out = [TRAIN; TRAIN; VALIDATION; VALIDATION; TRAIN] /\
  split_of [1;0;1;0;0] flag out = [-1;-1;1;1;-1] /\
  map counters (loop_trace [1;0;1;0;0] initial)
  = [ (0,0,0,0); (1,0,0,0); (1,0,1,0); (1,1,1,0); (1,1,1,1); (1,1,2,1) ].
Proof. repeat split. Qed.

(** C7. On [[1,1,1]] the result is [[TRAIN,VALIDATION,VALIDATION]]. *)
Theorem scenario_111 (flag : bool) (out : stdout) :
  split_of [1;1;1] flag out = [TRAIN; VALIDATION; VALIDATION] /\
  split_of [1;1;1] flag out = [-1;1;1].
Proof. split; reflexivity. Qed.

(** C8. At every step of the pass, that is after the first [k] samples for
    every [k] up to the length, the locals exist in the trace, they are the
    loop run on that prefix, and the four counters add up to [k]. *)
Theorem counters_sum_processed (y : list Z) (k : nat) :
  (k <= length y)%nat ->
  exists st : locals,
    nth_error (loop_trace y initial) k = Some st /\
    st = loop (firstn k y) /\
    out_train st + out_test st + norm_train st + norm_test st = Z.of_nat k.
Proof.
  intros Hk. exists (loop (firstn k y)). repeat split.
  - apply loop_trace_nth. exact Hk.
  - pose proof (c_sum _ _ (loop_consistent (firstn k y))) as Hs.
    unfold counter_sum in Hs. rewrite Hs, length_firstn. lia.
Qed.

Lemma counters_sum_processed_witness :
  exists st : locals,
    nth_error (loop_trace [1;0;1;0;0] initial) 3 = Some st /\
    st = loop (firstn 3 [1;0;1;0;0]) /\
    out_train st + out_test st + norm_train st + norm_test st = Z.of_nat 3.
Proof.
  apply (counters_sum_processed [1;0;1;0;0] 3).
  simpl. lia.
Defined.

(** C10. At every step of the pass the validation-normal counter is at most
    the validation-outlier counter, and so in every prefix of the output
    the normals assigned VALIDATION are at most as many as the outliers
    assigned VALIDATION.  A label other than 1 counts as normal, as in the
    code. *)
Theorem validation_normals_bounded
    (y : list Z) (flag : bool) (out : stdout) (k : nat) :
  (k <= length y)%nat ->
  exists st : locals,
    nth_error (loop_trace y initial) k = Some st /\
    norm_test st <= out_test st /\
    (count_assigned is_normal VALIDATION
       (firstn k y) (firstn k (split_of y flag out))
     <= count_assigned is_outlier VALIDATION
          (firstn k y) (firstn k (split_of y flag out)))%nat.
Proof.
  intros Hk. exists (loop (firstn k y)).
  destruct (loop_consistent (firstn k y))
    as [_ _ Hov _ Hnv _ _ Hbal].
  repeat split.
  - apply loop_trace_nth. exact Hk.
  - exact Hbal.
  - rewrite split_of_loop, split_firstn. lia.
Qed.

Lemma validation_normals_bounded_witness :
  exists st : locals,
    nth_error (loop_trace [1;1;0;1;0;0;0]%Z initial) 6 = Some st /\
    norm_test st <= out_test st /\
    (count_assigned is_normal VALIDATION
       (firstn 6 [1;1;0;1;0;0;0]%Z) (firstn 6 (split_of [1;1;0;1;0;0;0]%Z true []))
     <= count_assigned is_outlier VALIDATION
          (firstn 6 [1;1;0;1;0;0;0]%Z)
          (firstn 6 (split_of [1;1;0;1;0;0;0]%Z true [])))%nat.
Proof.
  apply (validation_normals_bounded [1;1;0;1;0;0;0]%Z true [] 6).
  simpl. lia.
Defined.

(** * Further properties of [balanced_split] *)

Section SplitFacts.

Lemma outliers_snoc (y : list Z) (v : Z) :
  outliers (y ++ [v]) = (outliers y + (if is_outlier v then 1 else 0))%nat.
Proof.
  unfold outliers. rewrite filter_app, length_app. simpl.
  destruct (is_outlier v); reflexivity.
Qed.

Lemma normals_snoc (y : list Z) (v : Z) :
  normals (y ++ [v]) = (normals y + (if is_outlier v then 0 else 1))%nat.
Proof.
  unfold normals, is_normal. rewrite filter_app, length_app. simpl.
  destruct (is_outlier v); reflexivity.
Qed.

(** The counters in closed form. *)
Lemma loop_counts (y : list Z) :
  out_train (loop y) = Z.of_nat (Nat.min 1 (outliers y)) /\
  out_test (loop y) = Z.of_nat (outliers y - 1) /\
  norm_train (loop y) + norm_test (loop y) = Z.of_nat (normals y).
Proof.
  induction y as [|v y [IHt [IHv IHn]]] using rev_ind.
  - repeat split.
  - rewrite loop_snoc, outliers_snoc, normals_snoc.
    unfold loop_body, is_outlier.
    split_tests (loop y) v; cbn [out_train out_test norm_train norm_test]; lia.
Qed.

Lemma firstn_succ_nth (y : list Z) (i : nat) (v : Z) :
  nth_error y i = Some v -> firstn (S i) y = firstn i y ++ [v].
Proof.
  revert i. induction y as [|a y IH]; intros [|i] Hv; simpl in *;
    try discriminate.
  - now injection Hv as ->.
  - f_equal. now apply IH.
Qed.

Lemma outliers_firstn_le (y : list Z) (k : nat) :
  (outliers (firstn k y) <= outliers y)%nat.
Proof.
  rewrite <- (firstn_skipn k y) at 2.
  unfold outliers. rewrite filter_app, length_app. lia.
Qed.

(** A position is TRAIN as long as at most one outlier has come up to and
    including it. *)
Lemma train_before_second_outlier (y : list Z) (i : nat) (v : Z) :
  nth_error y i = Some v ->
  (outliers (firstn (S i) y) <= 1)%nat ->
  nth_error (selected_indices (loop y)) i = Some TRAIN.
Proof.
  intros Hv Hone.
  rewrite (split_nth y i v Hv).
  rewrite (firstn_succ_nth y i v Hv), outliers_snoc in Hone.
  destruct (loop_counts (firstn i y)) as [Ht [Hov _]].
  pose proof (c_norm_test _ _ (loop_consistent (firstn i y))) as Hnv.
  unfold marker_of. unfold is_outlier in Hone.
  split_tests (loop (firstn i y)) v; try reflexivity; exfalso; lia.
Qed.

Lemma count_marker_by_label (m : Z) (y : list Z) :
  forall sel : list Z,
    length y = length sel ->
    count_marker m sel
    = (count_assigned is_outlier m y sel + count_assigned is_normal m y sel)%nat.
Proof.
  unfold count_marker, count_assigned, is_normal.
  induction y as [|v y IH]; intros [|a sel] Hlen; simpl in *;
    try discriminate; [reflexivity|].
  injection Hlen as Hlen. specialize (IH sel Hlen).
  destruct (is_outlier v), (a =? m); simpl; lia.
Qed.

Lemma count_assigned_positive (p : Z -> bool) (m : Z) (y sel : list Z) :
  (0 < count_assigned p m y sel)%nat -> In m sel.
Proof.
  unfold count_assigned. intros Hpos.
  destruct (filter (fun va => p (fst va) && (snd va =? m)) (combine y sel))
    as [|[v a] rest] eqn:E; [simpl in Hpos; lia|].
  assert (Hin : In (v, a)
                  (filter (fun va => p (fst va) && (snd va =? m)) (combine y sel)))
    by (rewrite E; now left).
  apply filter_In in Hin. destruct Hin as [Hin Hpa]. simpl in Hpa.
  apply andb_true_iff in Hpa. destruct Hpa as [_ Ha].
  apply Z.eqb_eq in Ha. subst a.
  exact (in_combine_r _ _ _ _ Hin).
Qed.

(** A run of zeros fills the validation set up to balance and sends the
    rest to training. *)
Lemma loop_from_zeros_balance (n : nat) :
  forall st,
    norm_test st <= out_test st ->
    out_test st - norm_test st <= Z.of_nat n ->
    out_test (loop_from st (repeat 0 n)) = out_test st /\
    norm_test (loop_from st (repeat 0 n)) = out_test st.
Proof.
  induction n as [|n IH]; intros st Hle Hn.
  - simpl. split; [reflexivity | lia].
  - change (loop_from st (repeat 0 (S n)))
      with (loop_from (loop_body st 0) (repeat 0 n)).
    assert (Hb : out_test (loop_body st 0) = out_test st /\
                 norm_test (loop_body st 0) <= out_test st /\
                 out_test st - norm_test (loop_body st 0) <= Z.of_nat n).
    { unfold loop_body. simpl.
      destruct (Z.gtb_spec (out_test st) (norm_test st)); simpl; lia. }
    destruct Hb as [Hb1 [Hb2 Hb3]].
    destruct (IH (loop_body st 0)) as [H1 H2]; rewrite ?Hb1; try assumption.
    rewrite H1, H2, Hb1. split; reflexivity.
Qed.

End SplitFacts.

(** X1. Appending samples never changes what was decided for the earlier
    ones: the result for [y ++ z] starts with the result for [y], followed
    by one marker for each sample of [z]. *)
Theorem split_prefix_stable
    (y z : list Z) (flag1 flag2 : bool) (out1 out2 : stdout) :
  exists t : list Z,
    split_of (y ++ z) flag1 out1 = split_of y flag2 out2 ++ t /\
    length t = length z.
Proof.
  rewrite !split_of_loop. unfold loop at 1. rewrite loop_from_app.
  exact (loop_from_extends z (loop y)).
Qed.

(** X2. Every sample up to and including the first outlier, and every
    normal sample before the second outlier, is assigned TRAIN: position
    [i] is TRAIN whenever at most one outlier occurs among the first
    [i + 1] labels. *)
Theorem train_until_second_outlier
    (y : list Z) (flag : bool) (out : stdout) (i : nat) :
  (i < length y)%nat ->
  (outliers (firstn (S i) y) <= 1)%nat ->
  nth_error (split_of y flag out) i = Some TRAIN.
Proof.
  intros Hi Hone. rewrite split_of_loop.
  destruct (nth_error y i) as [v|] eqn:Hv.
  - exact (train_before_second_outlier y i v Hv Hone).
  - apply nth_error_None in Hv. lia.
Qed.

Lemma train_until_second_outlier_witness :
  nth_error (split_of [0;1;0;0;1;0] true []) 3 = Some TRAIN.
Proof.
  apply (train_until_second_outlier [0;1;0;0;1;0] true [] 3).
  - simpl. lia.
  - vm_compute. lia.
Defined.

(** X3. The validation set is non-empty exactly when the labels hold at
    least two outliers. *)
Theorem validation_nonempty_iff_two_outliers
    (y : list Z) (flag : bool) (out : stdout) :
  In VALIDATION (split_of y flag out) <-> (2 <= outliers y)%nat.
Proof.
  rewrite split_of_loop. split.
  - intros Hin. apply In_nth_error in Hin. destruct Hin as [i Hi].
    destruct (Nat.le_gt_cases 2 (outliers y)) as [H2|H2]; [exact H2|].
    exfalso.
    assert (Hlt : (i < length y)%nat).
    { rewrite <- (loop_length y). apply nth_error_Some. congruence. }
    destruct (nth_error y i) as [v|] eqn:Hv;
      [| apply nth_error_None in Hv; lia].
    pose proof (outliers_firstn_le y (S i)) as Hle.
    rewrite (train_before_second_outlier y i v Hv) in Hi by lia.
    discriminate Hi.
  - intros H2.
    apply (count_assigned_positive is_outlier VALIDATION y).
    destruct (loop_counts y) as [_ [Hov _]].
    pose proof (c_out_test _ _ (loop_consistent y)) as Hc.
    lia.
Qed.

(** X4. The outliers are shared out exactly: one goes to TRAIN when there
    is any, all the others go to VALIDATION, and every normal sample is in
    one of the two sets. *)
Theorem label_counts_exact (y : list Z) (flag : bool) (out : stdout) :
  count_assigned is_outlier TRAIN y (split_of y flag out)
  = Nat.min 1 (outliers y) /\
  count_assigned is_outlier VALIDATION y (split_of y flag out)
  = (outliers y - 1)%nat /\
  (count_assigned is_normal TRAIN y (split_of y flag out)
   + count_assigned is_normal VALIDATION y (split_of y flag out))%nat
  = normals y.
Proof.
  rewrite split_of_loop.
  destruct (loop_counts y) as [Ht [Hv Hn]].
  destruct (loop_consistent y) as [_ Hot Hov Hnt Hnv _ _ _].
  repeat split; lia.
Qed.

(** X5. The validation set holds between k - 1 and 2 (k - 1) samples,
    where k is the number of outliers: at least half of it are outliers. *)
Theorem validation_size_bounds (y : list Z) (flag : bool) (out : stdout) :
  (outliers y - 1 <= count_marker VALIDATION (split_of y flag out))%nat /\
  (count_marker VALIDATION (split_of y flag out) <= 2 * (outliers y - 1))%nat.
Proof.
  rewrite split_of_loop.
  rewrite (count_marker_by_label VALIDATION y (selected_indices (loop y)))
    by (symmetry; apply loop_length).
  destruct (loop_counts y) as [_ [Hv _]].
  destruct (loop_consistent y) as [_ _ Hov _ Hnv _ _ Hbal].
  split; lia.
Qed.

(** X6. How a normal sample (a label other than 1) is routed: it is
    assigned VALIDATION when, among the samples before it, fewer normals
    than outliers were assigned VALIDATION, and TRAIN when the two numbers
    are equal; no third case occurs. *)
Theorem normal_routing
    (y : list Z) (flag : bool) (out : stdout) (i : nat) (v : Z) :
  nth_error y i = Some v ->
  v <> 1 ->
  let sel := split_of y flag out in
  let before_normal :=
    count_assigned is_normal VALIDATION (firstn i y) (firstn i sel) in
  let before_outlier :=
    count_assigned is_outlier VALIDATION (firstn i y) (firstn i sel) in
  (nth_error sel i = Some VALIDATION /\ (before_normal < before_outlier)%nat) \/
  (nth_error sel i = Some TRAIN /\ before_normal = before_outlier).
Proof.
  intros Hv Hne. cbv zeta.
  rewrite split_of_loop, split_firstn, (split_nth y i v Hv).
  destruct (loop_consistent (firstn i y)) as [_ _ Hov _ Hnv _ _ Hbal].
  unfold marker_of.
  split_tests (loop (firstn i y)) v; [contradiction | contradiction | |].
  - left. split; [reflexivity | lia].
  - right. split; [reflexivity | lia].
Qed.

Lemma normal_routing_witness :
  let sel := split_of [1;1;0;0] true [] in
  let before_normal :=
    count_assigned is_normal VALIDATION (firstn 2 [1;1;0;0]%Z) (firstn 2 sel) in
  let before_outlier :=
    count_assigned is_outlier VALIDATION (firstn 2 [1;1;0;0]%Z) (firstn 2 sel) in
  (nth_error sel 2 = Some VALIDATION /\ (before_normal < before_outlier)%nat) \/
  (nth_error sel 2 = Some TRAIN /\ before_normal = before_outlier).
Proof.
  apply (normal_routing [1;1;0;0] true [] 2 0).
  - reflexivity.
  - discriminate.
Defined.

(** X7. With the flag set, what was printed before is kept and five lines
    follow; their numbers are the length of the input and the numbers of
    outliers and of normals that the returned list places in TRAIN and in
    VALIDATION, and the four counts add up to the printed total. *)
Theorem report_truthful (y : list Z) (out : stdout) :
  let res := balanced_split y true out in
  firstn (length out) (snd res) = out /\
  printed_numbers (skipn (length out) (snd res))
  = [ Z.of_nat (length y);
      Z.of_nat (count_assigned is_outlier TRAIN y (fst res));
      Z.of_nat (count_assigned is_outlier VALIDATION y (fst res));
      Z.of_nat (count_assigned is_normal TRAIN y (fst res));
      Z.of_nat (count_assigned is_normal VALIDATION y (fst res)) ] /\
  (count_assigned is_outlier TRAIN y (fst res)
   + count_assigned is_outlier VALIDATION y (fst res)
   + count_assigned is_normal TRAIN y (fst res)
   + count_assigned is_normal VALIDATION y (fst res))%nat = length y.
Proof.
  cbv zeta. unfold balanced_split.
  cbn [fst snd].
  destruct (loop_consistent y) as [_ Hot Hov Hnt Hnv _ Hsum _].
  unfold counter_sum in Hsum.
  repeat split.
  - rewrite firstn_app, firstn_all, Nat.sub_diag. simpl. apply app_nil_r.
  - rewrite skipn_app, skipn_all, Nat.sub_diag. simpl.
    unfold printed_numbers, report. simpl.
    now rewrite <- Hot, <- Hov, <- Hnt, <- Hnv.
  - lia.
Qed.

(** X8. The first sample is always assigned TRAIN, whatever its label, so
    the training set of a non-empty input is never empty. *)
Theorem first_sample_in_train
    (v : Z) (y : list Z) (flag : bool) (out : stdout) :
  hd_error (split_of (v :: y) flag out) = Some TRAIN /\
  (1 <= count_marker TRAIN (split_of (v :: y) flag out))%nat.
Proof.
  rewrite split_of_loop.
  assert (H0 : nth_error (selected_indices (loop (v :: y))) 0 = Some TRAIN).
  { apply (train_before_second_outlier (v :: y) 0 v); [reflexivity|].
    unfold outliers. simpl. destruct (is_outlier v); simpl; lia. }
  destruct (selected_indices (loop (v :: y))) as [|a sel]; [discriminate|].
  simpl in H0. injection H0 as ->.
  split; [reflexivity|].
  unfold count_marker. simpl. lia.
Qed.

(** X9. Enough normal samples at the end balance the validation set: when
    the labels [y] are followed by at least k - 1 zeros, k being the number
    of outliers of [y], the validation set holds as many normals as
    outliers, namely k - 1 of each. *)
Theorem trailing_normals_balance
    (y : list Z) (n : nat) (flag : bool) (out : stdout) :
  (outliers y - 1 <= n)%nat ->
  let y' := y ++ repeat 0 n in
  count_assigned is_outlier VALIDATION y' (split_of y' flag out)
  = (outliers y - 1)%nat /\
  count_assigned is_normal VALIDATION y' (split_of y' flag out)
  = (outliers y - 1)%nat.
Proof.
  intros Hn. cbv zeta. rewrite split_of_loop.
  destruct (loop_consistent (y ++ repeat 0 n)) as [_ _ Hov _ Hnv _ _ _].
  destruct (loop_consistent y) as [_ _ _ _ Hnv0 _ _ Hbal].
  destruct (loop_counts y) as [_ [Hv0 _]].
  assert (Hrun : loop (y ++ repeat 0 n) = loop_from (loop y) (repeat 0 n))
    by (unfold loop; apply loop_from_app).
  destruct (loop_from_zeros_balance n (loop y)) as [H1 H2]; [exact Hbal | lia |].
  rewrite Hrun in Hov, Hnv. rewrite H1 in Hov. rewrite H2 in Hnv.
  rewrite Hrun. split; lia.
Qed.

Lemma trailing_normals_balance_witness :
  let y' := [0;1;1;0;1]%Z ++ repeat 0 3 in
  count_assigned is_outlier VALIDATION y' (split_of y' true [])
  = (outliers [0;1;1;0;1]%Z - 1)%nat /\
  count_assigned is_normal VALIDATION y' (split_of y' true [])
  = (outliers [0;1;1;0;1]%Z - 1)%nat.
Proof.
  apply (trailing_normals_balance [0;1;1;0;1] 3 true []).
  vm_compute. lia.
Defined.

(** * The columns of [get_metric_result] *)

Section MetricColumns.

Import Metrics.

Variable V : Type.

Lemma fixed_cols_NoDup : NoDup fixed_cols.
Proof.
  unfold fixed_cols.
  repeat (constructor;
          [ simpl; intros H;
            repeat (destruct H as [H|H]; [discriminate H|]); exact H | ]).
  constructor.
Qed.

Lemma fixed_cols_not_metric (c : string) :
  In c fixed_cols -> startswith c "metric_" = false.
Proof.
  unfold fixed_cols. simpl. intros H.
  repeat (destruct H as [H|H]; [subst c; reflexivity|]).
  contradiction.
Qed.

Lemma metric_keys_In (cv_results : list (string * V)) (c : string) :
  In c (metric_keys cv_results)
  <-> In c (map fst cv_results) /\ startswith c "metric_" = true.
Proof.
  unfold metric_keys.
  exact (filter_In (fun key => startswith key "metric_") c (map fst cv_results)).
Qed.

End MetricColumns.

(** X10. The list of columns that [get_metric_result] selects starts with
    the five fixed names, in the order of lines 143-147.  What follows are
    exactly the keys of [cv_results] that start with [metric_], in the order
    in which [cv_results] holds them: of two such keys, the one that comes
    first in [cv_results] comes first in the list.  The keys of a dict being
    distinct, the list names no column twice. *)
Theorem cols_fixed_then_metrics (V : Type) (cv_results : list (string * V)) :
  NoDup (map fst cv_results) ->
  NoDup (Metrics.cols cv_results) /\
  firstn 5 (Metrics.cols cv_results)
  = [ "rank_test_scores"; "status"; "param_classifier:__choice__";
      "mean_test_score"; "mean_fit_time" ]%string /\
  (forall c : string,
      In c (skipn 5 (Metrics.cols cv_results)) <->
      In c (map fst cv_results) /\ Metrics.startswith c "metric_" = true) /\
  (forall (a b : string) (l1 l2 l3 : list string),
      map fst cv_results = l1 ++ a :: l2 ++ b :: l3 ->
      Metrics.startswith a "metric_" = true ->
      Metrics.startswith b "metric_" = true ->
      exists m1 m2 m3 : list string,
        skipn 5 (Metrics.cols cv_results) = m1 ++ a :: m2 ++ b :: m3).
Proof.
  intros Hkeys.
  assert (Htail : skipn 5 (Metrics.cols cv_results)
                  = Metrics.metric_keys cv_results) by reflexivity.
  split; [|split; [|split]].
  - unfold Metrics.cols. apply NoDup_app.
    + apply fixed_cols_NoDup.
    + unfold Metrics.metric_keys. now apply NoDup_filter.
    + intros c Hfix Hmet. apply metric_keys_In in Hmet.
      rewrite (fixed_cols_not_metric c Hfix) in Hmet.
      destruct Hmet as [_ Hmet]. discriminate Hmet.
  - reflexivity.
  - intros c. rewrite Htail. apply metric_keys_In.
  - intros a b l1 l2 l3 Hsplit Ha Hb.
    rewrite Htail. unfold Metrics.metric_keys. rewrite Hsplit.
    exists (filter (fun key => Metrics.startswith key "metric_") l1),
           (filter (fun key => Metrics.startswith key "metric_") l2),
           (filter (fun key => Metrics.startswith key "metric_") l3).
    rewrite filter_app. cbn [filter]. rewrite Ha.
    rewrite filter_app. cbn [filter]. rewrite Hb.
    reflexivity.
Qed.

Lemma cols_fixed_then_metrics_witness :
  Metrics.cols Metrics.two_models
  = [ "rank_test_scores"; "status"; "param_classifier:__choice__";
      "mean_test_score"; "mean_fit_time";
      "metric_roc_auc"; "metric_f1" ]%string /\
  NoDup (Metrics.cols Metrics.two_models) /\
  exists m1 m2 m3 : list string,
    skipn 5 (Metrics.cols Metrics.two_models)
    = m1 ++ "metric_roc_auc"%string :: m2 ++ "metric_f1"%string :: m3.
Proof.
  assert (Hkeys : NoDup (map fst Metrics.two_models)).
  { simpl.
    repeat (constructor;
            [ simpl; intros H;
              repeat (destruct H as [H|H]; [discriminate H|]); exact H | ]).
    constructor. }
  destruct (cols_fixed_then_metrics (list Metrics.cell) Metrics.two_models Hkeys)
    as [Hnodup [_ [_ Horder]]].
  split; [reflexivity|]. split; [exact Hnodup|].
  apply (Horder "metric_roc_auc"%string "metric_f1"%string
           [ "mean_test_score"%string ]
           [ "mean_fit_time"%string; "params"%string;
             "rank_test_scores"%string; "status"%string ]
           [ "param_classifier:__choice__"%string ]);
    reflexivity.
Defined.

(** * The adapter [ECODClassifier] *)

Section EcodFacts.

Import Ecod.

Context {L : Pyod}.

Lemma after_calls_state (cs : list call) :
  forall (self : ECODClassifier) (seen : option (samples * targets)),
    estimator self = bound_estimator seen ->
    estimator (after_calls self cs) = bound_estimator (last_fit cs seen) /\
    random_state (after_calls self cs) = random_state self.
Proof.
  induction cs as [|c cs IH]; intros self seen Hself.
  - split; [exact Hself | reflexivity].
  - destruct c as [x y | x | x];
      change (after_calls self (?c :: cs))
        with (after_calls (after_call self c) cs).
    + destruct (IH (after_call self (Fit x y)) (Some (x, y))) as [He Hr];
        [reflexivity|].
      split; [exact He | rewrite Hr; reflexivity].
    + exact (IH self seen Hself).
    + exact (IH self seen Hself).
Qed.

End EcodFacts.

(** X11. After any series of calls on a newly constructed classifier,
    [predict] and [predict_proba] raise [NotImplementedError] when no [fit]
    was among the calls; otherwise they hand back what the library's
    estimator answers, the estimator being a new [ECOD()] fitted with the
    arguments of the latest [fit] alone (whether or not that fit raised).
    Earlier fits and [random_state] have no influence, and [random_state]
    keeps the value given to the constructor. *)
Theorem predict_after_calls
    (L : Ecod.Pyod) (rs : option Z) (cs : list Ecod.call) (x : Ecod.samples) :
  let self := Ecod.after_calls (Ecod.init rs) cs in
  Ecod.predict self x
  = match Ecod.last_fit cs None with
    | None => Ecod.Raise Ecod.predictions Ecod.NotImplementedError
    | Some (x0, y0) =>
        Ecod.lift Ecod.predictions
          (Ecod.ecod_predict (fst (Ecod.ecod_fit Ecod.ECOD x0 y0)) x)
    end /\
  Ecod.predict_proba self x
  = match Ecod.last_fit cs None with
    | None => Ecod.Raise Ecod.probabilities Ecod.NotImplementedError
    | Some (x0, y0) =>
        Ecod.lift Ecod.probabilities
          (Ecod.ecod_predict_proba (fst (Ecod.ecod_fit Ecod.ECOD x0 y0)) x)
    end /\
  Ecod.random_state self = rs.
Proof.
  cbv zeta.
  destruct (after_calls_state cs (Ecod.init rs) None) as [He Hr];
    [reflexivity|].
  unfold Ecod.predict, Ecod.predict_proba. rewrite He, Hr.
  destruct (Ecod.last_fit cs None) as [[x0 y0]|]; repeat split.
Qed.
